(** * omics_ingest: run-folder finalisation, manifest comparison, relocation

    A shallow embedding of [omics_ingest/common.py] (and of the helper
    [to_ingested_path] it shares with [omics_ingest/genomics/illumina.py]).

    Python values are modelled as follows.
    - [str] is [string] (8-bit characters; the manifests are ASCII text).
    - [dict] with string keys is [gmap string _]; the key views are [gset string].
    - [datetime] and [timedelta] are [Z] (microseconds).
    - An exception is a value of [exn]; a call either returns or raises.
    - External commands, the iRODS session, the clock and the injected
      predicate are read from a [world]; what the code changes (local files,
      remote objects, remote metadata, the log) is threaded as a [state]. *)

From Stdlib Require Import ZArith Ascii String List Lia Bool.
From stdpp Require Import gmap strings list sorting fin_maps.

Local Open Scope string_scope.
Local Open Scope Z_scope.

(* ===================================================================== *)
(** ** Python string operations used by the module *)
(* ===================================================================== *)

Module PyStr.

(** [s.startswith(p)]. *)
Definition startswith (s p : string) : bool := String.prefix p s.

(** Characters removed by [str.strip()] with no argument, in the ASCII
    range: TAB, LF, VT, FF, CR, FS, GS, RS, US and space. *)
Definition is_whitespace (c : ascii) : bool :=
  let n := nat_of_ascii c in
  ((9 <=? n)%nat && (n <=? 13)%nat) || ((28 <=? n)%nat && (n <=? 32)%nat).

Fixpoint lstrip (s : string) : string :=
  match s with
  | EmptyString => EmptyString
  | String c r => if is_whitespace c then lstrip r else s
  end.

Fixpoint rstrip (s : string) : string :=
  match s with
  | EmptyString => EmptyString
  | String c r =>
      match rstrip r with
      | EmptyString => if is_whitespace c then EmptyString else String c EmptyString
      | r' => String c r'
      end
  end.

(** [s.strip()]. *)
Definition strip (s : string) : string := lstrip (rstrip s).

(** [s.split(sep)] for a one-character separator: always at least one
    field, empty fields are kept. *)
Fixpoint split (sep : ascii) (s : string) : list string :=
  match s with
  | EmptyString => [EmptyString]
  | String c r =>
      if Ascii.eqb c sep then EmptyString :: split sep r
      else match split sep r with
           | [] => [String c EmptyString]
           | f :: fs => String c f :: fs
           end
  end.

(** Number of occurrences of a character. *)
Fixpoint count (c : ascii) (s : string) : nat :=
  match s with
  | EmptyString => 0%nat
  | String d r => ((if Ascii.eqb d c then 1 else 0) + count c r)%nat
  end.

(** [s.replace(old, new)]: every non-overlapping occurrence of [old],
    scanning from the left.  [skip] counts the characters of an occurrence
    that has just been replaced and must still be dropped. *)
Fixpoint replace_from (skip : nat) (old new s : string) : string :=
  match s with
  | EmptyString => EmptyString
  | String c r =>
      match skip with
      | S k => replace_from k old new r
      | O =>
          if String.prefix old s
          then new ++ replace_from (String.length old - 1) old new r
          else String c (replace_from 0 old new r)
      end
  end.

(** With an empty [old] Python inserts [new] before every character and
    once more at the end. *)
Fixpoint intersperse_all (new s : string) : string :=
  match s with
  | EmptyString => new
  | String c r => new ++ String c (intersperse_all new r)
  end.

Definition replace (s old new : string) : string :=
  match old with
  | EmptyString => intersperse_all new s
  | _ => replace_from 0 old new s
  end.

(** Iterating over a file opened in text mode yields its lines.  A line
    ends at LF, at CR LF or at a CR alone, each of which is read as one
    newline character and kept; a last line without line end is yielded
    as it is.  [cur] is the line read so far, reversed. *)
Fixpoint lines_go (cur : string) (s : string) : list string :=
  match s with
  | EmptyString =>
      match cur with
      | EmptyString => []
      | _ => [String.rev cur]
      end
  | String c r =>
      if Ascii.eqb c "010"%char
      then String.rev (String "010"%char cur) :: lines_go EmptyString r
      else if Ascii.eqb c "013"%char
      then
        match r with
        | String d r' =>
            if Ascii.eqb d "010"%char
            then String.rev (String "010"%char cur) :: lines_go EmptyString r'
            else String.rev (String "010"%char cur) :: lines_go EmptyString r
        | EmptyString => [String.rev (String "010"%char cur)]
        end
      else lines_go (String c cur) r
  end.

Definition lines (text : string) : list string := lines_go EmptyString text.

(** [sorted(xs)] on strings (code-point order). *)
Definition sorted (xs : list string) : list string := merge_sort String.le xs.

End PyStr.

(* ===================================================================== *)
(** ** Exceptions, log records, effects *)
(* ===================================================================== *)

(** The Python exceptions the module can raise or has handlers for. *)
Inductive exn : Type :=
| NameError (name : string)
| UnboundLocalError (name : string)
| ValueError
| KeyError (key : string)
| TypeError
| RuntimeError (msg : string)
| FileNotFoundError (path : string)
| OSError
| CalledProcessError (argv : list string)
| ParserError (text : string)
| RemoteError.

(** [except OSError] also catches the subclass [FileNotFoundError]. *)
Definition is_OSError (e : exn) : bool :=
  match e with
  | OSError | FileNotFoundError _ => true
  | _ => false
  end.

(** [except subprocess.CalledProcessError]. *)
Definition is_CalledProcessError (e : exn) : bool :=
  match e with
  | CalledProcessError _ => true
  | _ => false
  end.

Inductive level : Type := LvlInfo | LvlWarn | LvlError.

(** One constructor per logger call of [common.py]; the arguments are the
    values the call formats into its message. *)
Inductive message : Type :=
| MsgSizeMismatch (size_local size_irods path : string)
| MsgChecksumMismatch (chksum_local chksum_irods path : string)
| MsgExtraLocal (n : nat) (shown : list string)
| MsgExtraIrods (n : nat) (shown : list string)
| MsgNotMarkedDone (src_folder : string)
| MsgWillFinalize (dst_collection : string) (age delay : Z)
| MsgNotMoving (dst_collection : string) (age delay : Z)
| MsgComputeChecksums (path : string)
| MsgChecksumsFailed (e : exn)
| MsgPullIrodsChecksums
| MsgIrodsManifestFailed (e : exn)
| MsgAttemptingMove (src dst : string)
| MsgCouldNotMove (e : exn)
| MsgSkipping.

(** An AVU triple attached to a collection. *)
Record avu : Type := iRODSMeta { avu_name : string; avu_value : string; avu_units : string }.

(** What the code does to its surroundings, in the order it does it. *)
Inductive event : Type :=
| Log (lvl : level) (msg : message)
| CallIsFolderDone (path : string)
| MetaGetAll (coll key : string)
| MetaSet (coll : string) (meta : avu)
| OpenWrite (path : string)
| Popen (argv : list string) (cwd : string)
| Run (argv : list string)
| Remove (path : string)
| Put (src dst : string)
| Mkdir (path : string)
| Rename (src dst : string)
| SessionOpen
| SessionCleanup
| CollectionsGet (path : string)
| Iterdir (path : string).

#[global] Instance exn_eq_dec : EqDecision exn.
Proof. solve_decision. Defined.
#[global] Instance level_eq_dec : EqDecision level.
Proof. solve_decision. Defined.
#[global] Instance message_eq_dec : EqDecision message.
Proof. solve_decision. Defined.
#[global] Instance avu_eq_dec : EqDecision avu.
Proof. solve_decision. Defined.
#[global] Instance event_eq_dec : EqDecision event.
Proof. solve_decision. Defined.

(** The mutable surroundings. *)
Record state : Type := mkState {
  files : gmap string string;        (** local regular files: path to text *)
  objects : gmap string string;      (** remote data objects: logical path to content *)
  metadata : gmap string (list avu); (** AVUs of the remote collections, by path *)
  ticks : nat;                       (** readings of the clock taken so far *)
  trace : list event                 (** the effects so far, oldest first *)
}.

(** The surroundings the code only reads: the clock,
    [dateutil.parser.parse], the outcome of every external command and of
    every fallible file-system or remote operation. *)
Record world : Type := mkWorld {
  now : nat -> Z;                           (** successive readings of the clock *)
  dateutil_parse : string -> option Z;
  run_process : list string -> Z * string;  (** return code and standard output *)
  succeeds : event -> bool;
  subcollections : string -> list string;   (** names of the subcollections of a collection *)
  iterdir : string -> list string           (** names of the entries of a local directory *)
}.

(** How a piece of a function body ends. *)
Inductive completion (A : Type) : Type :=
| Normal (a : A)
| Return_           (** a [return] statement was executed *)
| Raise (e : exn).
Arguments Normal {A} a.
Arguments Return_ {A}.
Arguments Raise {A} e.

Definition M (A : Type) : Type := state -> completion A * state.

Definition ret {A} (a : A) : M A := fun st => (Normal a, st).
Definition raise {A} (e : exn) : M A := fun st => (Raise e, st).
Definition return_ {A} : M A := fun st => (Return_, st).

Definition bind {A B} (m : M A) (k : A -> M B) : M B :=
  fun st =>
    match m st with
    | (Normal a, st') => k a st'
    | (Return_, st') => (Return_, st')
    | (Raise e, st') => (Raise e, st')
    end.

Declare Scope py_scope.
Delimit Scope py_scope with py.
Notation "x <- c ;; k" := (bind c (fun x => k))
  (at level 100, c at next level, right associativity) : py_scope.
Notation "c ;; k" := (bind c (fun _ => k))
  (at level 100, right associativity) : py_scope.
Local Open Scope py_scope.

(** [try: body except <class>: handler]. *)
Definition try_except {A} (body : M A) (catches : exn -> bool) (handler : exn -> M A) : M A :=
  fun st =>
    match body st with
    | (Raise e, st') => if catches e then handler e st' else (Raise e, st')
    | r => r
    end.

(** [try: body finally: final]. *)
Definition try_finally {A} (body : M A) (final : M unit) : M A :=
  fun st =>
    match body st with
    | (r, st') =>
        match final st' with
        | (Normal _, st'') => (r, st'')
        | (Return_, st'') => (Return_, st'')
        | (Raise e, st'') => (Raise e, st'')
        end
    end.

(** A call: a [return] inside the body ends the call normally. *)
Definition call (body : M unit) : M unit :=
  fun st =>
    match body st with
    | (Return_, st') => (Normal tt, st')
    | r => r
    end.

Definition emit (ev : event) : M unit :=
  fun st => (Normal tt, mkState (files st) (objects st) (metadata st) (ticks st) (trace st ++ [ev])).

Definition log (lvl : level) (msg : message) : M unit := emit (Log lvl msg).

Definition get_state : M state := fun st => (Normal st, st).

(** [st] with [evs] appended to its trace. *)
Definition record (st : state) (evs : list event) : state :=
  mkState (files st) (objects st) (metadata st) (ticks st) (trace st ++ evs).

(** The events added between [st] and a later state [st']. *)
Definition new_events (st st' : state) : list event :=
  drop (length (trace st)) (trace st').

(** [a] occurs in [tr] strictly before an occurrence of [b]. *)
Fixpoint occurs_before (a b : event) (tr : list event) : Prop :=
  match tr with
  | [] => False
  | x :: rest => (x = a /\ b ∈ rest) \/ occurs_before a b rest
  end.

#[global] Instance occurs_before_dec a b tr : Decision (occurs_before a b tr).
Proof. induction tr as [|x rest IH]; simpl; apply _. Defined.

(** The AVUs of a collection that carry a given key. *)
Definition avus_with_key (md : gmap string (list avu)) (coll key : string) : list avu :=
  List.filter (fun m => String.eqb (avu_name m) key) (default [] (md !! coll)).

(** [coll.metadata[key] = meta] on the stored AVUs. *)
Definition with_avu (md : gmap string (list avu)) (coll key : string) (meta : avu)
  : gmap string (list avu) :=
  <[coll := (List.filter (fun m => negb (String.eqb (avu_name m) key))
               (default [] (md !! coll)) ++ [meta])%list]> md.

(** The state after a reading of the clock. *)
Definition tick (st : state) : state :=
  mkState (files st) (objects st) (metadata st) (S (ticks st)) (trace st).

(** The running maximum kept by the loop of lines 122-125. *)
Definition keep_newest (last_update : option Z) (value : Z) : option Z :=
  match last_update with
  | None => Some value
  | Some lu => if value >? lu then Some value else Some lu
  end.

(* ===================================================================== *)
(** ** Module constants *)
(* ===================================================================== *)

Definition KEY_LAST_UPDATE : string := "omics::ingest::last_update".
Definition KEY_STATUS : string := "omics::ingest::status".
Definition KEY_FIRST_SEEN : string := "omics::ingest::first_seen".
Definition HASHDEEP_THREADS : string := "8".
Definition HASHDEEP_ALGO : string := "md5".
Definition MANIFEST_LOCAL : string := "_MANIFEST_LOCAL.txt".
Definition MANIFEST_IRODS : string := "_MANIFEST_IRODS.txt".

(* ===================================================================== *)
(** ** [_compare_manifests] (common.py, lines 49-103) *)
(* ===================================================================== *)

(** [open(path, "rt")] followed by reading the whole text. *)
Definition open_read (path : string) : M string :=
  fun st =>
    match files st !! path with
    | Some text => (Normal text, st)
    | None => (Raise (FileNotFoundError path), st)
    end.

(** [a, b, c = fields]: exactly three items, [ValueError] otherwise. *)
Definition unpack3 (fields : list string) : M (string * string * string) :=
  match fields with
  | [a; b; c] => ret (a, b, c)
  | _ => raise ValueError
  end.

(** [line.startswith("#") or line.startswith("%")]. *)
Definition is_comment (line : string) : bool :=
  PyStr.startswith line "#" || PyStr.startswith line "%".

(** The loop of lines 57-62. *)
Fixpoint load_local (lines : list string) (info_local : gmap string (string * string))
  : M (gmap string (string * string)) :=
  match lines with
  | [] => ret info_local
  | line :: rest =>
      if is_comment line then load_local rest info_local
      else
        let line := PyStr.strip line in
        fields <- unpack3 (PyStr.split "," line) ;;
        let '(size, chksum, path) := fields in
        load_local rest (<[path := (size, chksum)]> info_local)
  end.

(** The loop of lines 65-71.  Both dictionaries are in scope; line 71
    stores the remote entry into [info_local], and nothing stores into
    [info_irods]. *)
Fixpoint load_irods (dest_coll : string) (lines : list string)
    (info_local info_irods : gmap string (string * string))
  : M (gmap string (string * string) * gmap string (string * string)) :=
  match lines with
  | [] => ret (info_local, info_irods)
  | line :: rest =>
      if is_comment line then load_irods dest_coll rest info_local info_irods
      else
        let line := PyStr.strip line in
        fields <- unpack3 (PyStr.split "," line) ;;
        let '(size, chksum, path) := fields in
        let path := PyStr.replace path dest_coll "." in
        load_irods dest_coll rest (<[path := (size, chksum)]> info_local) info_irods
  end.

(** [info[path]]. *)
Definition getitem (info : gmap string (string * string)) (path : string)
  : M (string * string) :=
  match info !! path with
  | Some v => ret v
  | None => raise (KeyError path)
  end.

(** The loop of lines 75-85 over the common keys; [ok] is the flag. *)
Fixpoint compare_common (paths : list string)
    (info_local info_irods : gmap string (string * string)) (ok : bool) : M bool :=
  match paths with
  | [] => ret ok
  | path :: rest =>
      l <- getitem info_local path ;;
      r <- getitem info_irods path ;;
      let '(size_local, chksum_local) := l in
      let '(size_irods, chksum_irods) := r in
      ok <- (if bool_decide (size_local <> size_irods)
             then log LvlError (MsgSizeMismatch size_local size_irods path) ;; ret false
             else ret ok) ;;
      ok <- (if bool_decide (chksum_local <> chksum_irods)
             then log LvlError (MsgChecksumMismatch chksum_local chksum_irods path) ;; ret false
             else ret ok) ;;
      compare_common rest info_local info_irods ok
  end.

(** [list(sorted(extra))[:10]]. *)
Definition first_ten_sorted (extra : gset string) : list string :=
  take 10 (PyStr.sorted (elements extra)).

Definition _compare_manifests (path_local path_irods dest_coll : string) : M unit :=
  call (
    (* Load file sizes and checksums. *)
    text_local <- open_read path_local ;;
    info_local <- load_local (PyStr.lines text_local) ∅ ;;
    text_irods <- open_read path_irods ;;
    both <- load_irods dest_coll (PyStr.lines text_irods) info_local ∅ ;;
    let '(info_local, info_irods) := both in
    (* Compare file sizes and checksums. *)
    ok <- compare_common (elements (dom info_local ∩ dom info_irods))
            info_local info_irods true ;;
    (* Find extra items on either side. *)
    let extra_local : gset string := dom info_local ∖ dom info_irods in
    ok <- (if bool_decide (extra_local <> ∅)
           then log LvlError (MsgExtraLocal (size extra_local) (first_ten_sorted extra_local)) ;;
                ret false
           else ret ok) ;;
    let extra_irods : gset string := dom info_irods ∖ dom info_local in
    ok <- (if bool_decide (extra_irods <> ∅)
           then log LvlError (MsgExtraIrods (size extra_irods) (first_ten_sorted extra_irods)) ;;
                ret false
           else ret ok) ;;
    if negb ok then raise (RuntimeError "Difference in manifests!") else ret tt).

(* ===================================================================== *)
(** ** [pathlib] paths and [to_ingested_path] (common.py, lines 42-46) *)
(* ===================================================================== *)

Module Pathlib.

(** A pure POSIX path: its root ([""], ["/"] or ["//"]) and the
    components after it. *)
Record t : Type := mk { root : string; parts : list string }.

#[global] Instance eq_dec : EqDecision t.
Proof. solve_decision. Defined.

(** One leading slash or three and more give the root ["/"], exactly two
    give ["//"]. *)
Definition root_of (s : string) : string :=
  match s with
  | String "/" (String "/" (String "/" _)) => "/"
  | String "/" (String "/" _) => "//"
  | String "/" _ => "/"
  | _ => ""
  end.

(** Empty components and ["."] are dropped when a path is parsed. *)
Definition keeps (c : string) : bool :=
  negb (String.eqb c "") && negb (String.eqb c ".").

(** [pathlib.Path(s)]. *)
Definition Path (s : string) : t :=
  mk (root_of s) (List.filter keeps (PyStr.split "/" s)).

(** ["/".join(parts)]. *)
Fixpoint join_parts (ps : list string) : string :=
  match ps with
  | [] => ""
  | [p] => p
  | p :: rest => p ++ "/" ++ join_parts rest
  end.

(** [str(p)]. *)
Definition str (p : t) : string :=
  match root p, parts p with
  | EmptyString, [] => "."
  | r, ps => r ++ join_parts ps
  end.

(** [p.parent]: a path without components is its own parent. *)
Definition parent (p : t) : t :=
  match parts p with
  | [] => p
  | ps => mk (root p) (removelast ps)
  end.

(** [p.name]: the last component, or the empty string. *)
Definition name (p : t) : string := List.last (parts p) "".

(** [p / s] for a string [s]: an absolute [s] replaces [p]. *)
Definition div (p : t) (s : string) : t :=
  let q := Path s in
  match root q with
  | EmptyString => mk (root p) (parts p ++ parts q)
  | _ => q
  end.

End Pathlib.

Notation "p // s" := (Pathlib.div p s) (at level 40, left associativity).

Definition to_ingested_path (orig_path : string) : Pathlib.t :=
  let orig_path := Pathlib.Path orig_path in
  let ingested_base :=
    Pathlib.parent (Pathlib.parent orig_path)
      // (Pathlib.name (Pathlib.parent orig_path) ++ "-INGESTED") in
  ingested_base // Pathlib.name orig_path.

(** [os.path.join(a, b)] on POSIX. *)
Definition os_path_join (a b : string) : string :=
  if PyStr.startswith b "/" then b
  else if String.eqb a "" || PyStr.startswith (String.rev a) "/" then a ++ b
  else a ++ "/" ++ b.

(* ===================================================================== *)
(** ** The [%] operator on strings *)
(* ===================================================================== *)

(** [fmt % args] for the conversions the module uses.  A [%] at the very
    end is a [ValueError]; [%%] is a percent sign; for any other
    conversion the next argument is taken first, a [TypeError] when none
    is left, and then a character other than [s] or [d] is a
    [ValueError]; arguments left over at the end are a [TypeError]. *)
Fixpoint py_format (fmt : string) (args : list string) : exn + string :=
  match fmt with
  | EmptyString =>
      match args with
      | [] => inr EmptyString
      | _ => inl TypeError
      end
  | String "%" EmptyString => inl ValueError
  | String "%" (String c r) =>
      if Ascii.eqb c "%" then
        match py_format r args with
        | inr s => inr (String "%" s)
        | inl e => inl e
        end
      else
        match args with
        | [] => inl TypeError
        | a :: args' =>
            if Ascii.eqb c "s" || Ascii.eqb c "d" then
              match py_format r args' with
              | inr s => inr (a ++ s)
              | inl e => inl e
              end
            else inl ValueError
        end
  | String c r =>
      match py_format r args with
      | inr s => inr (String c s)
      | inl e => inl e
      end
  end.

Definition format (fmt : string) (args : list string) : M string :=
  match py_format fmt args with
  | inr s => ret s
  | inl e => raise e
  end.

(* ===================================================================== *)
(** ** Effects of the run-folder handler *)
(* ===================================================================== *)

Definition set_files (f : gmap string string -> gmap string string) : M unit :=
  fun st => (Normal tt, mkState (f (files st)) (objects st) (metadata st) (ticks st) (trace st)).

Definition set_objects (f : gmap string string -> gmap string string) : M unit :=
  fun st => (Normal tt, mkState (files st) (f (objects st)) (metadata st) (ticks st) (trace st)).

Definition set_metadata (f : gmap string (list avu) -> gmap string (list avu)) : M unit :=
  fun st => (Normal tt, mkState (files st) (objects st) (f (metadata st)) (ticks st) (trace st)).

(** Moving a directory moves every file below it. *)
Definition reroot (src dst path : string) : string :=
  if PyStr.startswith path (src ++ "/")
  then dst ++ String.substring (String.length src) (String.length path - String.length src) path
  else path.

Definition rename_tree (src dst : string) (fs : gmap string string) : gmap string string :=
  list_to_map (List.map (fun kv => (reroot src dst (fst kv), snd kv)) (map_to_list fs)).

Section Effects.

Variable w : world.

(** [datetime.datetime.now()]: the next reading of the clock. *)
Definition datetime_now : M Z :=
  fun st => (Normal (now w (ticks st)), tick st).

(** An operation that the surroundings may refuse: it is recorded, and
    raises [e] when refused. *)
Definition attempt (ev : event) (e : exn) : M unit :=
  emit ev ;;
  if succeeds w ev then ret tt else raise e.

(** [coll.metadata.get_all(key)]. *)
Definition metadata_get_all (coll key : string) : M (list avu) :=
  attempt (MetaGetAll coll key) RemoteError ;;
  st <- get_state ;;
  ret (avus_with_key (metadata st) coll key).

(** [coll.metadata[key] = meta]: every AVU with that key is removed and
    the new one added. *)
Definition metadata_setitem (coll key : string) (meta : avu) : M unit :=
  attempt (MetaSet coll meta) RemoteError ;;
  set_metadata (fun md => with_avu md coll key meta).

(** [dateutil.parser.parse(text)]. *)
Definition dateutil_parser_parse (text : string) : M Z :=
  match dateutil_parse w text with
  | Some t => ret t
  | None => raise (ParserError text)
  end.

(** Calling the injected predicate [is_folder_done]. *)
Definition call_is_folder_done (is_folder_done : string -> bool) (path : string) : M bool :=
  emit (CallIsFolderDone path) ;;
  ret (is_folder_done path).

(** [open(path, "wt")]: the file is created or truncated. *)
Definition open_write (path : string) : M unit :=
  attempt (OpenWrite path) OSError ;;
  set_files (fun fs => <[path := ""]> fs).

(** What a child process writes to a standard output redirected to the
    open file [path]. *)
Definition write_to (path text : string) : M unit :=
  set_files (fun fs => <[path := default "" (fs !! path) ++ text]> fs).

(** [subprocess.Popen(argv, cwd=cwd)] without [stdout=PIPE]: the child
    is started and [wait()] will give its return code; its [stdout]
    attribute is [None]. *)
Definition subprocess_Popen (argv : list string) (cwd : string) : M Z :=
  attempt (Popen argv cwd) OSError ;;
  ret (fst (run_process w argv)).

(** [subprocess.run(argv, stdout=<file at path>, check=True)]. *)
Definition subprocess_run_to (argv : list string) (path : string) : M unit :=
  emit (Run argv) ;;
  let '(returncode, out) := run_process w argv in
  write_to path out ;;
  if returncode =? 0 then ret tt else raise (CalledProcessError argv).

(** [subprocess.check_output(argv)]. *)
Definition subprocess_check_output (argv : list string) : M string :=
  emit (Run argv) ;;
  let '(returncode, out) := run_process w argv in
  if returncode =? 0 then ret out else raise (CalledProcessError argv).

(** [os.remove(path)]. *)
Definition os_remove (path : string) : M unit :=
  emit (Remove path) ;;
  st <- get_state ;;
  match files st !! path with
  | Some _ => set_files (fun fs => delete path fs)
  | None => raise (FileNotFoundError path)
  end.

(** [session.data_objects.put(src, dst)]. *)
Definition data_objects_put (src dst : string) : M unit :=
  attempt (Put src dst) RemoteError ;;
  st <- get_state ;;
  match files st !! src with
  | Some content => set_objects (fun os => <[dst := content]> os)
  | None => raise (FileNotFoundError src)
  end.

(** [path.mkdir(exist_ok=True)]. *)
Definition mkdir (path : string) : M unit := attempt (Mkdir path) OSError.

(** [src.rename(dst)]. *)
Definition rename (src dst : string) : M unit :=
  attempt (Rename src dst) OSError ;;
  set_files (rename_tree src dst).

(** [run_ichksum] (lines 282-284). *)
Definition run_ichksum (irods_path : string) : M unit :=
  call (subprocess_check_output ["ichksum"; irods_path] ;; ret tt).

(** Reading a global name of the module: the string constants defined at
    its top level. *)
Definition module_globals : gmap string string :=
  list_to_map
    [("KEY_LAST_UPDATE", KEY_LAST_UPDATE); ("KEY_STATUS", KEY_STATUS);
     ("KEY_FIRST_SEEN", KEY_FIRST_SEEN); ("HASHDEEP_THREADS", HASHDEEP_THREADS);
     ("HASHDEEP_ALGO", HASHDEEP_ALGO); ("MANIFEST_LOCAL", MANIFEST_LOCAL);
     ("MANIFEST_IRODS", MANIFEST_IRODS)].

Definition load_global (name : string) : M string :=
  match module_globals !! name with
  | Some v => ret v
  | None => raise (NameError name)
  end.

(** Reading a local variable that is assigned only further down. *)
Definition load_unbound_local (name : string) : M string :=
  raise (UnboundLocalError name).

End Effects.

(* ===================================================================== *)
(** ** The [find] command of the local manifest build *)
(* ===================================================================== *)

(** The semantics of [find] for the primaries that line 143 uses. *)
Module Find.

Inductive kind : Type := RegularFile | Directory | Other.

(** An entry below the starting point, with the path [find] prints for
    it (["./name"], ["./sub/name"], ...). *)
Record entry : Type := mkEntry { e_path : string; e_kind : kind }.

Inductive primary : Type :=
| TypeIs (t : string)
| PathIs (pattern : string).

(** The expression after the starting point, as a conjunction of
    possibly negated primaries ([-and] is also implied between two
    primaries). *)
Fixpoint parse (toks : list string) (negated : bool) : option (list (bool * primary)) :=
  match toks with
  | [] => if negated then None else Some []
  | tok :: rest =>
      if String.eqb tok "-and" then (if negated then None else parse rest false)
      else if String.eqb tok "-not" then parse rest (negb negated)
      else
        match rest with
        | arg :: rest' =>
            if String.eqb tok "-type"
            then option_map (cons (negated, TypeIs arg)) (parse rest' false)
            else if String.eqb tok "-path"
            then option_map (cons (negated, PathIs arg)) (parse rest' false)
            else None
        | [] => None
        end
  end.

(** A pattern with no [*], [?], [[] or backslash matches itself only. *)
Definition is_meta (c : ascii) : bool :=
  Ascii.eqb c "*" || Ascii.eqb c "?" || Ascii.eqb c "[" || Ascii.eqb c "\".

Fixpoint literal (pattern : string) : bool :=
  match pattern with
  | EmptyString => true
  | String c r => negb (is_meta c) && literal r
  end.

Definition holds (p : primary) (e : entry) : option bool :=
  match p with
  | TypeIs t =>
      if String.eqb t "f"
      then Some (match e_kind e with RegularFile => true | _ => false end)
      else if String.eqb t "d"
      then Some (match e_kind e with Directory => true | _ => false end)
      else None
  | PathIs pattern =>
      if literal pattern then Some (String.eqb pattern (e_path e)) else None
  end.

Fixpoint selects (tests : list (bool * primary)) (e : entry) : option bool :=
  match tests with
  | [] => Some true
  | (negated, p) :: rest =>
      match holds p e, selects rest e with
      | Some b, Some bs => Some (xorb negated b && bs)
      | _, _ => None
      end
  end.

Fixpoint select_all (tests : list (bool * primary)) (es : list entry) : option (list string) :=
  match es with
  | [] => Some []
  | e :: rest =>
      match selects tests e, select_all tests rest with
      | Some true, Some out => Some (e_path e :: out)
      | Some false, Some out => Some out
      | _, _ => None
      end
  end.

(** The paths [find] prints when run as [argv] in a directory whose
    entries are [es]; [None] for a command line outside the fragment. *)
Definition run (argv : list string) (es : list entry) : option (list string) :=
  match argv with
  | prog :: start :: toks =>
      if String.eqb prog "find" && String.eqb start "."
      then match parse toks false with
           | Some tests => select_all tests es
           | None => None
           end
      else None
  | _ => None
  end.

End Find.

(* ===================================================================== *)
(** ** [_post_job_run_folder_done] (common.py, lines 106-218) *)
(* ===================================================================== *)

(** The command lines and catalogue queries, built with [%] as in the
    source. *)
Definition find_command : exn + string :=
  py_format "find . -type f -and -not -path ./%s" [MANIFEST_LOCAL].

Definition hashdeep_command : exn + string :=
  py_format "hashdeep -c %s -f /dev/stdin -j %s" [HASHDEEP_ALGO; HASHDEEP_THREADS].

Definition iquest_query (dst_collection : string) : exn + string :=
  py_format
    ("SELECT DATA_SIZE, DATA_CHECKSUM, COLL_NAME, DATA_NAME "
     ++ "WHERE COLL_NAME = '%s' AND DATA_NAME != '%s' AND DATA_NAME != '%s'")
    [dst_collection; MANIFEST_LOCAL; MANIFEST_IRODS].

Definition iquest_query_sub (dst_collection : string) : exn + string :=
  py_format
    ("SELECT DATA_SIZE, DATA_CHECKSUM, COLL_NAME, DATA_NAME "
     ++ "WHERE COLL_NAME like '%s/%'")
    [dst_collection].

Definition lift {A} (r : exn + A) : M A :=
  match r with
  | inr a => ret a
  | inl e => raise e
  end.

Section Handler.

Variable w : world.

(** Lines 121-125: the newest of the stored [last_update] values;
    [keep_newest] is the body of the [if] on lines 124-125. *)
Fixpoint newest (metas : list avu) (last_update : option Z) : M (option Z) :=
  match metas with
  | [] => ret last_update
  | meta :: rest =>
      value <- dateutil_parser_parse w (avu_value meta) ;;
      newest rest (keep_newest last_update value)
  end.

(** Line 126: [now() - (last_update or now())]; the left operand is
    evaluated first, and the second reading of the clock is taken only
    when there is no stored value. *)
Definition age_of (last_update : option Z) : M Z :=
  t1 <- datetime_now w ;;
  t2 <- (match last_update with
         | Some lu => ret lu
         | None => datetime_now w
         end) ;;
  ret (t1 - t2).

(** Lines 140-162: the local manifest. *)
Definition build_local_manifest (src_folder local_path : string) : M unit :=
  try_except
    (open_write w local_path ;;
     cmd <- lift find_command ;;
     p_find_returncode <- subprocess_Popen w (PyStr.split " " cmd) src_folder ;;
     cmd <- lift hashdeep_command ;;
     subprocess_run_to w (PyStr.split " " cmd) local_path ;;
     (* [CalledProcessError] is built with one argument instead of two *)
     if negb (p_find_returncode =? 0) then raise TypeError else ret tt)
    is_CalledProcessError
    (fun e =>
       log LvlWarn (MsgChecksumsFailed e) ;;
       os_remove local_path ;;
       return_).

(** Lines 164-193: the manifest of the remote side. *)
Definition build_irods_manifest (dst_collection irods_path : string) : M unit :=
  log LvlInfo MsgPullIrodsChecksums ;;
  try_except
    (open_write w irods_path ;;
     query <- lift (iquest_query dst_collection) ;;
     subprocess_run_to w ["iquest"; "%d,%s,%s/%s"; query] irods_path ;;
     query_sub <- lift (iquest_query_sub dst_collection) ;;
     subprocess_run_to w ["iquest"; "%d,%s,%s/%s"; query_sub] irods_path)
    is_CalledProcessError
    (fun e =>
       log LvlWarn (MsgIrodsManifestFailed e) ;;
       os_remove irods_path ;;
       return_).

(** Lines 196-213: both manifests are put, the folder is moved, the
    status is set.  The collection stands for its logical path where
    lines 197 and 201 join it to a file name.  These lines close the
    body of [finalize]; no run of the handler gets to them, as line 139
    raises before. *)
Definition put_manifests_and_move
    (src_folder dst_collection local_path irods_path : string) : M unit :=
  (* Put local hashdeep manifest. *)
  let local_manifest_dest := os_path_join dst_collection MANIFEST_LOCAL in
  data_objects_put w local_path local_manifest_dest ;;
  run_ichksum w local_manifest_dest ;;
  (* Put manifest built from irods. *)
  let irods_manifest_dest := os_path_join dst_collection MANIFEST_IRODS in
  data_objects_put w irods_path irods_manifest_dest ;;
  run_ichksum w irods_manifest_dest ;;
  (* Move folder. *)
  let new_src_folder := to_ingested_path src_folder in
  log LvlInfo (MsgAttemptingMove src_folder (Pathlib.str new_src_folder)) ;;
  try_except
    (mkdir w (Pathlib.str (Pathlib.parent new_src_folder)) ;;
     rename w src_folder (Pathlib.str new_src_folder))
    is_OSError
    (fun e => log LvlError (MsgCouldNotMove e)) ;;
  (* Update ``status`` meta data. *)
  metadata_setitem w dst_collection KEY_STATUS (iRODSMeta KEY_STATUS "complete" "").

(** Lines 137-213: the branch taken when the data is at rest. *)
Definition finalize (src_folder dst_collection : string) : M unit :=
  let local_path := os_path_join src_folder MANIFEST_LOCAL in
  (* line 139 logs [chck_path], a name the module never defines *)
  chck_path <- load_global "chck_path" ;;
  log LvlInfo (MsgComputeChecksums chck_path) ;;
  build_local_manifest src_folder local_path ;;
  let irods_path := os_path_join src_folder MANIFEST_IRODS in
  build_irods_manifest dst_collection irods_path ;;
  (* line 195 reads two locals that are assigned on lines 197 and 201 *)
  local_manifest_dest <- load_unbound_local "local_manifest_dest" ;;
  irods_manifest_dest <- load_unbound_local "irods_manifest_dest" ;;
  _compare_manifests local_manifest_dest irods_manifest_dest dst_collection ;;
  put_manifests_and_move src_folder dst_collection local_path irods_path.

Definition _post_job_run_folder_done
    (src_folder dst_collection : string)
    (is_folder_done : string -> bool) (delay_until_at_rest : Z) : M unit :=
  call (
    let src_folder := Pathlib.str (Pathlib.Path src_folder) in
    (* Get "last updated" time from meta data. *)
    metas <- metadata_get_all w dst_collection KEY_LAST_UPDATE ;;
    last_update <- newest metas None ;;
    last_update_age <- age_of last_update ;;
    (* Do not proceed if not marked as done. *)
    done <- call_is_folder_done is_folder_done src_folder ;;
    if negb done then
      log LvlInfo (MsgNotMarkedDone src_folder) ;;
      return_
    else
      (* Compute and check manifest and move if data is considered at rest. *)
      if last_update_age >? delay_until_at_rest then
        log LvlInfo (MsgWillFinalize dst_collection last_update_age delay_until_at_rest) ;;
        finalize src_folder dst_collection
      else
        log LvlInfo (MsgNotMoving dst_collection last_update_age delay_until_at_rest)).

(* =================================================================== *)
(** ** [post_job] (common.py, lines 238-261) *)
(* =================================================================== *)

(** A [for] loop: an exception raised by the body ends the loop. *)
Fixpoint for_each {A} (xs : list A) (body : A -> M unit) : M unit :=
  match xs with
  | [] => ret tt
  | x :: rest => body x ;; for_each rest body
  end.

(** [with cleanuping(thing)]: [thing.cleanup()] runs on every way out. *)
Definition cleanuping {A} (body : M A) : M A :=
  try_finally body (emit SessionCleanup).

(** A collection is identified with its logical path. *)
Definition collection_path (parent name : string) : string := parent ++ "/" ++ name.

Definition post_job (root target : string)
    (is_folder_done : string -> bool) (delay_until_at_rest : Z) : M unit :=
  call (
    let src_root := Pathlib.Path root in
    attempt w SessionOpen RemoteError ;;
    cleanuping (
      attempt w (CollectionsGet target) RemoteError ;;
      let dst_collections := subcollections w target in
      attempt w (Iterdir (Pathlib.str src_root)) OSError ;;
      for_each (PyStr.sorted (iterdir w (Pathlib.str src_root))) (fun src_folder =>
        if bool_decide (src_folder ∈ dst_collections) then
          _post_job_run_folder_done
            (Pathlib.str (src_root // src_folder))
            (collection_path target src_folder)
            is_folder_done delay_until_at_rest
        else
          log LvlInfo MsgSkipping))).

End Handler.

(* ===================================================================== *)
(** ** [omics_ingest/genomics/illumina.py] *)
(* ===================================================================== *)

Module Illumina.

(** [datetime.timedelta(minutes=15)], in microseconds. *)
Definition DELAY_UNTIL_AT_REST : Z := 15 * 60 * 1000000.

(** Lines 38-42: the same body as in [common.py]. *)
Definition to_ingested_path (orig_path : string) : Pathlib.t :=
  let orig_path := Pathlib.Path orig_path in
  let ingested_base :=
    Pathlib.parent (Pathlib.parent orig_path)
      // (Pathlib.name (Pathlib.parent orig_path) ++ "-INGESTED") in
  ingested_base // Pathlib.name orig_path.

End Illumina.

(* ===================================================================== *)
(** ** Vocabulary of the statements *)
(* ===================================================================== *)

(** A line that [strip()] empties. *)
Definition blank (line : string) : bool := String.eqb (PyStr.strip line) "".

(** A line that is not skipped and does not have exactly two commas. *)
Definition malformed (line : string) : bool :=
  negb (is_comment line) && negb (PyStr.count "," line =? 2)%nat.

(** [last] is the greatest of the values [ts]. *)
Definition greatest (last : Z) (ts : list Z) : Prop :=
  last ∈ ts /\ forall t, t ∈ ts -> t <= last.

(** The stored [last_update] values of a collection parse to [ts]. *)
Definition last_updates_parse (w : world) (st : state) (dst_collection : string)
    (ts : list Z) : Prop :=
  Forall2 (fun m t => dateutil_parse w (avu_value m) = Some t)
    (avus_with_key (metadata st) dst_collection KEY_LAST_UPDATE) ts.

(* ===================================================================== *)
(** ** A sample surrounding, for running the model *)
(* ===================================================================== *)

(** Timestamps as [datetime.isoformat()] writes them,
    [YYYY-MM-DDTHH:MM:SS] with an optional [.ffffff], read as microseconds
    since 1970-01-01T00:00:00. *)
Module Iso8601.

Definition digit (c : ascii) : option Z :=
  let n := Z.of_nat (nat_of_ascii c) in
  if (48 <=? n) && (n <=? 57) then Some (n - 48) else None.

Fixpoint number_from (acc : Z) (s : string) : option Z :=
  match s with
  | EmptyString => Some acc
  | String c r =>
      match digit c with
      | Some d => number_from (10 * acc + d) r
      | None => None
      end
  end.

Definition field (start len : nat) (s : string) : option Z :=
  let f := String.substring start len s in
  if (String.length f =? len)%nat then number_from 0 f else None.

Definition separator (i : nat) (c : ascii) (s : string) : bool :=
  match String.get i s with
  | Some d => Ascii.eqb c d
  | None => false
  end.

(** Days from 1970-01-01 to the given civil date. *)
Definition days_from_civil (y m d : Z) : Z :=
  let y := if m <=? 2 then y - 1 else y in
  let era := y / 400 in
  let yoe := y - era * 400 in
  let doy := (153 * (if 2 <? m then m - 3 else m + 9) + 2) / 5 + d - 1 in
  let doe := yoe * 365 + yoe / 4 - yoe / 100 + doy in
  era * 146097 + doe - 719468.

Definition parse (s : string) : option Z :=
  if separator 4 "-" s && separator 7 "-" s && separator 10 "T" s
     && separator 13 ":" s && separator 16 ":" s
  then
    match field 0 4 s, field 5 2 s, field 8 2 s, field 11 2 s, field 14 2 s, field 17 2 s with
    | Some y, Some mo, Some d, Some h, Some mi, Some sec =>
        let seconds := ((days_from_civil y mo d * 24 + h) * 60 + mi) * 60 + sec in
        if (String.length s =? 19)%nat then Some (seconds * 1000000)
        else if (String.length s =? 26)%nat && separator 19 "." s then
          match field 20 6 s with
          | Some us => Some (seconds * 1000000 + us)
          | None => None
          end
        else None
    | _, _, _, _, _, _ => None
    end
  else None.

End Iso8601.

(** Concrete surroundings and states on which the model is run. *)
Module Sample.

Definition nl : string := String "010"%char EmptyString.

(** Every command exits with 0 and prints nothing, every operation
    succeeds unless [refused], the clock reads [t0], [t0 + 1], ..., and
    both the source root and the target collection hold [Run123] and
    [Run124]. *)
Definition surroundings (refused : event -> bool) (t0 : Z) : world :=
  mkWorld (fun k => t0 + Z.of_nat k) Iso8601.parse (fun _ => (0, ""))
    (fun ev => negb (refused ev))
    (fun _ => ["Run123"; "Run124"]) (fun _ => ["Run124"; "Run123"]).

Definition nothing (ev : event) : bool := false.

Definition renames (ev : event) : bool :=
  match ev with
  | Rename _ _ => true
  | _ => false
  end.

(** 2021-03-01T12:00:00, and ten and twenty minutes later. *)
Definition noon : Z := 1614600000000000.
Definition ten_past : Z := noon + 10 * 60 * 1000000.
Definition twenty_past : Z := noon + 20 * 60 * 1000000.

(** A local and a remote manifest stored as the files ["L"] and ["R"]. *)
Definition manifests (local_text irods_text : string) : state :=
  mkState (<["L" := local_text]> (<["R" := irods_text]> ∅)) ∅ ∅ 0 [].

Definition src_folder : string := "/data/RunsA/Run123".
Definition dst_collection : string := "/zone/Run123".
Definition local_path : string := "/data/RunsA/Run123/_MANIFEST_LOCAL.txt".
Definition irods_path : string := "/data/RunsA/Run123/_MANIFEST_IRODS.txt".

(** Two tracked run folders, both last updated at noon; [Run123] holds
    one data file and the two manifests of it. *)
Definition tracked : state :=
  mkState
    (<["/data/RunsA/Run123/a" := "0123456789"]>
       (<[local_path := "10,x,./a" ++ nl]>
          (<[irods_path := "10,x,/zone/Run123/a" ++ nl]> ∅)))
    (<["/zone/Run123/a" := "0123456789"]> ∅)
    (<["/zone/Run123" := [iRODSMeta KEY_LAST_UPDATE "2021-03-01T12:00:00" ""]]>
       (<["/zone/Run124" := [iRODSMeta KEY_LAST_UPDATE "2021-03-01T12:00:00" ""]]> ∅))
    0 [].

(** The same, with no [last_update] value stored yet. *)
Definition fresh : state :=
  mkState (files tracked) (objects tracked)
    (<["/zone/Run123" := [iRODSMeta KEY_FIRST_SEEN "2021-03-01T12:00:00" ""]]> ∅) 0 [].

(** What [find] sees in a run folder that still holds the remote
    manifest of an earlier pass. *)
Definition run_folder_entries : list Find.entry :=
  [Find.mkEntry "./a" Find.RegularFile;
   Find.mkEntry "./sub" Find.Directory;
   Find.mkEntry "./sub/b" Find.RegularFile;
   Find.mkEntry "./_MANIFEST_LOCAL.txt" Find.RegularFile;
   Find.mkEntry "./_MANIFEST_IRODS.txt" Find.RegularFile].

End Sample.






(** The argument vector of the [find] call on line 143. *)
Definition find_argv : list string :=
  match find_command with
  | inr cmd => PyStr.split " " cmd
  | inl _ => []
  end.

(** What the command of line 143 selects. *)
Definition listed (e : Find.entry) : bool :=
  match Find.e_kind e with
  | Find.RegularFile => negb (String.eqb "./_MANIFEST_LOCAL.txt" (Find.e_path e))
  | _ => false
  end.

(* ===================================================================== *)
(** ** Facts about the string operations *)
(* ===================================================================== *)

Lemma split_nonempty sep s : PyStr.split sep s <> [].
Proof.
  destruct s as [|c r]; simpl; [discriminate|].
  destruct (Ascii.eqb c sep); [discriminate|].
  destruct (PyStr.split sep r); discriminate.
Qed.

Lemma split_length sep s : length (PyStr.split sep s) = S (PyStr.count sep s).
Proof.
  induction s as [|c r IH]; simpl; [reflexivity|].
  destruct (Ascii.eqb c sep); simpl; [by rewrite IH|].
  destruct (PyStr.split sep r) eqn:E; simpl in *; [discriminate|]. exact IH.
Qed.

Lemma count_lstrip c s :
  PyStr.is_whitespace c = false -> PyStr.count c (PyStr.lstrip s) = PyStr.count c s.
Proof.
  intros Hc. induction s as [|d r IH]; simpl; [reflexivity|].
  destruct (PyStr.is_whitespace d) eqn:Hd; simpl; [|reflexivity].
  rewrite IH. destruct (Ascii.eqb d c) eqn:E; [|reflexivity].
  apply Ascii.eqb_eq in E. congruence.
Qed.

Lemma count_rstrip c s :
  PyStr.is_whitespace c = false -> PyStr.count c (PyStr.rstrip s) = PyStr.count c s.
Proof.
  intros Hc. induction s as [|d r IH]; simpl; [reflexivity|].
  destruct (PyStr.rstrip r) as [|e r'] eqn:E.
  - simpl in IH. destruct (PyStr.is_whitespace d) eqn:Hd; simpl.
    + rewrite <- IH. destruct (Ascii.eqb d c) eqn:E'; [|reflexivity].
      apply Ascii.eqb_eq in E'. congruence.
    + by rewrite <- IH.
  - simpl. simpl in IH. by rewrite IH.
Qed.

Lemma count_strip c s :
  PyStr.is_whitespace c = false -> PyStr.count c (PyStr.strip s) = PyStr.count c s.
Proof. intros Hc. unfold PyStr.strip. by rewrite count_lstrip, count_rstrip. Qed.

Local Open Scope py_scope.

Lemma comma_not_whitespace : PyStr.is_whitespace "," = false.
Proof. reflexivity. Qed.

Lemma unpack3_raises fields st :
  length fields <> 3%nat -> unpack3 fields st = (Raise ValueError, st).
Proof.
  intros H. destruct fields as [|a [|b [|c [|d r]]]]; simpl in *; try reflexivity. lia.
Qed.

Lemma unpack3_returns fields :
  length fields = 3%nat -> exists a b c, fields = [a; b; c] /\ forall st, unpack3 fields st = (Normal (a, b, c), st).
Proof.
  intros H. destruct fields as [|a [|b [|c [|d r]]]]; simpl in *; try lia.
  exists a, b, c. split; reflexivity.
Qed.

Lemma fields_length line :
  length (PyStr.split "," (PyStr.strip line)) = S (PyStr.count "," line).
Proof. by rewrite split_length, count_strip. Qed.

Lemma strip_empty_count c s :
  PyStr.strip s = "" -> PyStr.is_whitespace c = false -> PyStr.count c s = 0%nat.
Proof. intros H Hc. rewrite <- (count_strip c s Hc), H. reflexivity. Qed.

Lemma lstrip_head_not_whitespace s c r :
  PyStr.lstrip s = String c r -> PyStr.is_whitespace c = false.
Proof.
  induction s as [|d s IH]; simpl; [discriminate|].
  destruct (PyStr.is_whitespace d) eqn:E; [exact IH|]. intros [= -> _]. exact E.
Qed.

Lemma rstrip_empty_head c r : PyStr.rstrip (String c r) = "" -> PyStr.is_whitespace c = true.
Proof.
  simpl. destruct (PyStr.rstrip r); [|discriminate].
  destruct (PyStr.is_whitespace c); [reflexivity|discriminate].
Qed.

Lemma lstrip_empty_rstrip s : PyStr.lstrip (PyStr.rstrip s) = "" -> PyStr.rstrip s = "".
Proof.
  induction s as [|c r IH]; simpl; [reflexivity|].
  destruct (PyStr.rstrip r) as [|d r'] eqn:E.
  - destruct (PyStr.is_whitespace c) eqn:Hc; [reflexivity|]. simpl. rewrite Hc. discriminate.
  - simpl. destruct (PyStr.is_whitespace c) eqn:Hc; [|discriminate].
    intros H. specialize (IH H). discriminate.
Qed.

Lemma startswith_char a s :
  PyStr.startswith s (String a "") = true <-> exists r, s = String a r.
Proof.
  unfold PyStr.startswith. destruct s as [|c r]; cbn [String.prefix].
  - split; [discriminate | intros [? [=]]].
  - destruct (ascii_dec a c) as [<-|Hne].
    + split; [intros _; by exists r | intros _; by destruct r].
    + split; [discriminate | intros [? [= <- _]]; by destruct Hne].
Qed.

Lemma is_comment_iff line :
  is_comment line = true <-> exists r, line = String "#" r \/ line = String "%" r.
Proof.
  unfold is_comment. rewrite orb_true_iff, !startswith_char.
  split; [intros [[r ->]|[r ->]]; exists r; tauto | intros [r [->| ->]]; eauto].
Qed.

Lemma blank_not_comment line : blank line = true -> is_comment line = false.
Proof.
  unfold blank. intros H. apply String.eqb_eq in H.
  destruct (is_comment line) eqn:E; [|reflexivity].
  apply is_comment_iff in E as [r [-> | ->]];
    apply lstrip_empty_rstrip, rstrip_empty_head in H; discriminate.
Qed.

Lemma blank_malformed line : blank line = true -> malformed line = true.
Proof.
  intros H. unfold malformed. rewrite (blank_not_comment _ H).
  apply String.eqb_eq in H. by rewrite (strip_empty_count "," _ H).
Qed.

(* ===================================================================== *)
(** ** Running the monad *)
(* ===================================================================== *)

Lemma bind_normal {A B} (m : M A) (k : A -> M B) st a st' :
  m st = (Normal a, st') -> bind m k st = k a st'.
Proof. unfold bind. by intros ->. Qed.

Lemma bind_raise {A B} (m : M A) (k : A -> M B) st e st' :
  m st = (Raise e, st') -> bind m k st = (Raise e, st').
Proof. unfold bind. by intros ->. Qed.

Lemma bind_return {A B} (m : M A) (k : A -> M B) st st' :
  m st = (Return_, st') -> bind m k st = (Return_, st').
Proof. unfold bind. by intros ->. Qed.

Lemma record_nil st : record st [] = st.
Proof. destruct st. unfold record. simpl. by rewrite app_nil_r. Qed.

Lemma record_record st a b : record (record st a) b = record st (a ++ b).
Proof. unfold record. simpl. by rewrite app_assoc. Qed.

Lemma emit_record ev st : emit ev st = (Normal tt, record st [ev]).
Proof. reflexivity. Qed.

Lemma log_record lvl msg st : log lvl msg st = (Normal tt, record st [Log lvl msg]).
Proof. reflexivity. Qed.

Lemma new_events_same st : new_events st st = [].
Proof. unfold new_events. by rewrite drop_all. Qed.

Lemma new_events_record st evs : new_events st (record st evs) = evs.
Proof. unfold new_events, record. simpl. by rewrite drop_app_length. Qed.

Lemma new_events_tick_record st evs : new_events st (tick (record st evs)) = evs.
Proof. unfold new_events, tick, record. simpl. by rewrite drop_app_length. Qed.

Lemma record_tick st evs : record (tick st) evs = tick (record st evs).
Proof. reflexivity. Qed.

Lemma tick_record_record st a b : record (tick (record st a)) b = tick (record st (a ++ b)).
Proof. unfold record, tick. simpl. by rewrite app_assoc. Qed.

(* ===================================================================== *)
(** ** Manifest parsing and comparison *)
(* ===================================================================== *)

Lemma malformed_false line :
  malformed line = false -> is_comment line = true \/ PyStr.count "," line = 2%nat.
Proof.
  unfold malformed. destruct (is_comment line); [by left|]. simpl.
  destruct (Nat.eqb_spec (PyStr.count "," line) 2); [by right | discriminate].
Qed.

Lemma malformed_true line :
  malformed line = true -> is_comment line = false /\ PyStr.count "," line <> 2%nat.
Proof.
  unfold malformed. destruct (is_comment line); [discriminate|]. simpl.
  destruct (Nat.eqb_spec (PyStr.count "," line) 2); [discriminate | by split].
Qed.

Lemma load_local_malformed lines :
  Exists (fun l => malformed l = true) lines ->
  forall m st, load_local lines m st = (Raise ValueError, st).
Proof.
  induction lines as [|line rest IH]; intros HE m st; [by apply Exists_nil in HE|].
  cbn [load_local].
  destruct (malformed line) eqn:Hm.
  - apply malformed_true in Hm as [-> Hc].
    apply bind_raise, unpack3_raises. rewrite fields_length. lia.
  - apply Exists_cons in HE as [HE|HE]; [congruence|].
    destruct (is_comment line) eqn:Hcom; [by apply IH|].
    apply malformed_false in Hm as [?|Hc]; [congruence|].
    destruct (unpack3_returns (PyStr.split "," (PyStr.strip line))) as (a & b & c & _ & Hu).
    { rewrite fields_length. lia. }
    rewrite (bind_normal _ _ _ _ _ (Hu st)). by apply IH.
Qed.

Lemma load_local_wellformed lines :
  Forall (fun l => malformed l = false) lines ->
  forall m st, exists m', load_local lines m st = (Normal m', st).
Proof.
  induction lines as [|line rest IH]; intros HF m st; [by exists m|].
  apply Forall_cons in HF as [Hm HF]. cbn [load_local].
  destruct (is_comment line) eqn:Hcom; [by apply IH|].
  apply malformed_false in Hm as [?|Hc]; [congruence|].
  destruct (unpack3_returns (PyStr.split "," (PyStr.strip line))) as (a & b & c & _ & Hu).
  { rewrite fields_length. lia. }
  rewrite (bind_normal _ _ _ _ _ (Hu st)). by apply IH.
Qed.

Lemma load_irods_malformed dest_coll lines :
  Exists (fun l => malformed l = true) lines ->
  forall il ii st, load_irods dest_coll lines il ii st = (Raise ValueError, st).
Proof.
  induction lines as [|line rest IH]; intros HE il ii st; [by apply Exists_nil in HE|].
  cbn [load_irods].
  destruct (malformed line) eqn:Hm.
  - apply malformed_true in Hm as [-> Hc].
    apply bind_raise, unpack3_raises. rewrite fields_length. lia.
  - apply Exists_cons in HE as [HE|HE]; [congruence|].
    destruct (is_comment line) eqn:Hcom; [by apply IH|].
    apply malformed_false in Hm as [?|Hc]; [congruence|].
    destruct (unpack3_returns (PyStr.split "," (PyStr.strip line))) as (a & b & c & _ & Hu).
    { rewrite fields_length. lia. }
    rewrite (bind_normal _ _ _ _ _ (Hu st)). by apply IH.
Qed.

(** The second loop never stores into [info_irods]. *)
Lemma load_irods_wellformed dest_coll lines :
  Forall (fun l => malformed l = false) lines ->
  forall il ii st, exists il', load_irods dest_coll lines il ii st = (Normal (il', ii), st).
Proof.
  induction lines as [|line rest IH]; intros HF il ii st; [by exists il|].
  apply Forall_cons in HF as [Hm HF]. cbn [load_irods].
  destruct (is_comment line) eqn:Hcom; [by apply IH|].
  apply malformed_false in Hm as [?|Hc]; [congruence|].
  destruct (unpack3_returns (PyStr.split "," (PyStr.strip line))) as (a & b & c & _ & Hu).
  { rewrite fields_length. lia. }
  rewrite (bind_normal _ _ _ _ _ (Hu st)). by apply IH.
Qed.

Lemma malformed_dec_list lines :
  Exists (fun l => malformed l = true) lines \/ Forall (fun l => malformed l = false) lines.
Proof.
  induction lines as [|l r [IH|IH]]; [by right | left; by right |].
  destruct (malformed l) eqn:E; [left; by left | right; by constructor].
Qed.

(** C10.  Manifest parsing is not total.  If either manifest file holds
    a line that is blank (empty or only whitespace), or a line that does
    not start with [#] or [%] and has fewer or more than two commas, then
    [_compare_manifests] raises [ValueError] before it has logged
    anything; the line is not skipped.  The only lines skipped are those
    whose first character is [#] or [%]. *)
Theorem manifest_parsing_raises_on_malformed_line
    st path_local path_irods dest_coll text_local text_irods line :
  files st !! path_local = Some text_local ->
  files st !! path_irods = Some text_irods ->
  line ∈ (PyStr.lines text_local ++ PyStr.lines text_irods)%list ->
  blank line = true \/ (is_comment line = false /\ PyStr.count "," line <> 2%nat) ->
  _compare_manifests path_local path_irods dest_coll st = (Raise ValueError, st)
  /\ (forall l, is_comment l = true <-> exists r, l = String "#" r \/ l = String "%" r).
Proof.
  intros Hl Hr Hin Hbad. split; [|apply is_comment_iff].
  assert (Hm : malformed line = true).
  { destruct Hbad as [Hb|[Hc Hn]]; [by apply blank_malformed|].
    unfold malformed. rewrite Hc. simpl.
    by destruct (Nat.eqb_spec (PyStr.count "," line) 2). }
  unfold _compare_manifests, call.
  assert (Hopen_l : open_read path_local st = (Normal text_local, st)) by (unfold open_read; by rewrite Hl).
  assert (Hopen_r : open_read path_irods st = (Normal text_irods, st)) by (unfold open_read; by rewrite Hr).
  rewrite (bind_normal _ _ _ _ _ Hopen_l).
  destruct (malformed_dec_list (PyStr.lines text_local)) as [HE|HF].
  - by rewrite (bind_raise _ _ _ _ _ (load_local_malformed _ HE _ _)).
  - destruct (load_local_wellformed _ HF ∅ st) as [m Hload].
    rewrite (bind_normal _ _ _ _ _ Hload), (bind_normal _ _ _ _ _ Hopen_r).
    assert (HE : Exists (fun l => malformed l = true) (PyStr.lines text_irods)).
    { apply elem_of_app in Hin as [Hin|Hin].
      - rewrite Forall_forall in HF. specialize (HF _ Hin). congruence.
      - apply Exists_exists. by exists line. }
    by rewrite (bind_raise _ _ _ _ _ (load_irods_malformed _ _ HE _ _ _)).
Qed.

(** The theorem at a local manifest with an empty second line. *)
Lemma manifest_parsing_raises_on_malformed_line_witness :
  let st := Sample.manifests ("10,x,a" ++ Sample.nl ++ Sample.nl) ("10,x,a" ++ Sample.nl) in
  _compare_manifests "L" "R" "/zone/Run123" st = (Raise ValueError, st).
Proof.
  refine (proj1 (manifest_parsing_raises_on_malformed_line
    (Sample.manifests ("10,x,a" ++ Sample.nl ++ Sample.nl) ("10,x,a" ++ Sample.nl))
    "L" "R" "/zone/Run123" ("10,x,a" ++ Sample.nl ++ Sample.nl) ("10,x,a" ++ Sample.nl)
    Sample.nl _ _ _ _)).
  - vm_compute. reflexivity.
  - vm_compute. reflexivity.
  - apply (bool_decide_unpack _). vm_compute. exact I.
  - left. reflexivity.
Defined.

(** When every line of both files is a comment or has three fields, the
    comparison depends on one dictionary only: the entries of both files
    merged by line 71.  It returns when that dictionary is empty and
    otherwise reports all its keys as local-only and raises. *)
Lemma compare_manifests_wellformed st path_local path_irods dest_coll text_local text_irods :
  files st !! path_local = Some text_local ->
  files st !! path_irods = Some text_irods ->
  Forall (fun l => malformed l = false) (PyStr.lines text_local) ->
  Forall (fun l => malformed l = false) (PyStr.lines text_irods) ->
  exists info_local merged,
    load_local (PyStr.lines text_local) ∅ st = (Normal info_local, st) /\
    load_irods dest_coll (PyStr.lines text_irods) info_local ∅ st = (Normal (merged, ∅), st) /\
    _compare_manifests path_local path_irods dest_coll st =
      if bool_decide (dom merged <> (∅ : gset string))
      then (Raise (RuntimeError "Difference in manifests!"),
            record st [Log LvlError (MsgExtraLocal (size (dom merged)) (first_ten_sorted (dom merged)))])
      else (Normal tt, st).
Proof.
  intros Hl Hr HFl HFr.
  destruct (load_local_wellformed _ HFl ∅ st) as [il Hil].
  destruct (load_irods_wellformed dest_coll _ HFr il ∅ st) as [merged Hm].
  exists il, merged. split; [done|]. split; [done|].
  unfold _compare_manifests, call.
  assert (Hopen_l : open_read path_local st = (Normal text_local, st)) by (unfold open_read; by rewrite Hl).
  assert (Hopen_r : open_read path_irods st = (Normal text_irods, st)) by (unfold open_read; by rewrite Hr).
  rewrite (bind_normal _ _ _ _ _ Hopen_l), (bind_normal _ _ _ _ _ Hil),
    (bind_normal _ _ _ _ _ Hopen_r), (bind_normal _ _ _ _ _ Hm).
  rewrite dom_empty_L.
  rewrite (right_absorb_L (∅ : gset string) (∩)).
  rewrite elements_empty. cbn [compare_common].
  rewrite difference_empty_L, empty_difference_L.
  unfold bind, ret, log, emit, raise. cbn beta iota.
  rewrite (bool_decide_eq_false_2 ((∅ : gset string) <> ∅)) by (intros H; by apply H).
  by destruct (bool_decide (dom merged <> ∅)).
Qed.

(** Whatever the two files hold, the only record the comparison can
    log is the list of keys it takes for local-only. *)
Lemma compare_manifests_logs_no_mismatch st path_local path_irods dest_coll ev :
  ev ∈ new_events st (snd (_compare_manifests path_local path_irods dest_coll st)) ->
  exists n shown, ev = Log LvlError (MsgExtraLocal n shown).
Proof.
  destruct (files st !! path_local) as [tl|] eqn:Hl.
  2:{ unfold _compare_manifests, call, bind, open_read. rewrite Hl. cbn [snd].
      rewrite new_events_same. by intros ?%not_elem_of_nil. }
  destruct (malformed_dec_list (PyStr.lines tl)) as [HE|HFl].
  { unfold _compare_manifests, call.
    assert (Hopen_l : open_read path_local st = (Normal tl, st)) by (unfold open_read; by rewrite Hl).
    rewrite (bind_normal _ _ _ _ _ Hopen_l).
    rewrite (bind_raise _ _ _ _ _ (load_local_malformed _ HE _ _)). cbn [snd].
    rewrite new_events_same. by intros ?%not_elem_of_nil. }
  destruct (files st !! path_irods) as [tr|] eqn:Hr.
  2:{ unfold _compare_manifests, call.
      assert (Hopen_l : open_read path_local st = (Normal tl, st)) by (unfold open_read; by rewrite Hl).
      destruct (load_local_wellformed _ HFl ∅ st) as [m Hload].
      rewrite (bind_normal _ _ _ _ _ Hopen_l), (bind_normal _ _ _ _ _ Hload).
      unfold bind at 1. unfold open_read. rewrite Hr. cbn [snd].
      rewrite new_events_same. by intros ?%not_elem_of_nil. }
  destruct (malformed_dec_list (PyStr.lines tr)) as [HE|HFr].
  { unfold _compare_manifests, call.
    assert (Hopen_l : open_read path_local st = (Normal tl, st)) by (unfold open_read; by rewrite Hl).
    assert (Hopen_r : open_read path_irods st = (Normal tr, st)) by (unfold open_read; by rewrite Hr).
    destruct (load_local_wellformed _ HFl ∅ st) as [m Hload].
    rewrite (bind_normal _ _ _ _ _ Hopen_l), (bind_normal _ _ _ _ _ Hload),
      (bind_normal _ _ _ _ _ Hopen_r).
    rewrite (bind_raise _ _ _ _ _ (load_irods_malformed _ _ HE _ _ _)). cbn [snd].
    rewrite new_events_same. by intros ?%not_elem_of_nil. }
  destruct (compare_manifests_wellformed st path_local path_irods dest_coll tl tr Hl Hr HFl HFr)
    as (il & merged & _ & _ & ->).
  destruct (bool_decide (dom merged <> ∅)); cbn [snd].
  - rewrite new_events_record. intros ->%list_elem_of_singleton. eauto.
  - rewrite new_events_same. by intros ?%not_elem_of_nil.
Qed.

(** C1, on the code.  For the local entries a:(10,x), b:(5,y) and the
    remote entries a:(10,x), c:(5,y) the comparison raises after one log
    record that counts three local-only keys, a, b and c, and none for the
    remote side; for two manifests that agree (key ./a on both sides after
    the destination collection is replaced by a dot) it raises as well.
    The loop over the remote file never changes [info_irods]. *)
Theorem compare_manifests_disjoint_keys :
  let st := Sample.manifests ("10,x,a" ++ Sample.nl ++ "5,y,b" ++ Sample.nl)
                             ("10,x,a" ++ Sample.nl ++ "5,y,c" ++ Sample.nl) in
  let same := Sample.manifests ("10,x,./a" ++ Sample.nl) ("10,x,/zone/Run123/a" ++ Sample.nl) in
  _compare_manifests "L" "R" "/zone/Run123" st
    = (Raise (RuntimeError "Difference in manifests!"),
       record st [Log LvlError (MsgExtraLocal 3 ["a"; "b"; "c"])])
  /\ _compare_manifests "L" "R" "/zone/Run123" same
    = (Raise (RuntimeError "Difference in manifests!"),
       record same [Log LvlError (MsgExtraLocal 1 ["./a"])])
  /\ (forall dest_coll lines info_local info_irods st0,
        match load_irods dest_coll lines info_local info_irods st0 with
        | (Normal (_, info_irods'), _) => info_irods' = info_irods
        | _ => True
        end).
Proof.
  split; [vm_compute; reflexivity|]. split; [vm_compute; reflexivity|].
  intros dest_coll lines info_local info_irods st0.
  destruct (malformed_dec_list lines) as [HE|HF].
  - by rewrite (load_irods_malformed _ _ HE).
  - by destruct (load_irods_wellformed dest_coll _ HF info_local info_irods st0) as [il' ->].
Qed.

(** C2, on the code.  For the local entry a:(10,x) and the remote entry
    a:(11,x) the comparison raises, and its only log record counts one
    local-only key, a; no size mismatch is recorded.  Whatever the two
    files hold, every record the comparison logs is the local-only
    list. *)
Theorem compare_manifests_size_mismatch :
  let st := Sample.manifests ("10,x,a" ++ Sample.nl) ("11,x,a" ++ Sample.nl) in
  _compare_manifests "L" "R" "/zone/Run123" st
    = (Raise (RuntimeError "Difference in manifests!"),
       record st [Log LvlError (MsgExtraLocal 1 ["a"])])
  /\ (forall st0 path_local path_irods dest_coll,
        Forall (fun ev => exists n shown, ev = Log LvlError (MsgExtraLocal n shown))
          (new_events st0 (snd (_compare_manifests path_local path_irods dest_coll st0)))).
Proof.
  split; [vm_compute; reflexivity|].
  intros st0 path_local path_irods dest_coll. apply Forall_forall. intros ev Hin.
  by eapply compare_manifests_logs_no_mismatch.
Qed.

(* ===================================================================== *)
(** ** The relocation path *)
(* ===================================================================== *)

Lemma split_fields_no_sep sep s f :
  f ∈ PyStr.split sep s -> PyStr.count sep f = 0%nat.
Proof.
  revert f. induction s as [|c r IH]; intros f; simpl.
  - intros ->%list_elem_of_singleton. reflexivity.
  - destruct (Ascii.eqb c sep) eqn:E.
    + intros [->|H]%elem_of_cons; [reflexivity | by apply IH].
    + destruct (PyStr.split sep r) as [|g gs] eqn:Es.
      * intros ->%list_elem_of_singleton. simpl. by rewrite E.
      * intros [->|H]%elem_of_cons.
        -- simpl. rewrite E. apply IH. by left.
        -- apply IH. by right.
Qed.

Lemma split_without_sep sep s : PyStr.count sep s = 0%nat -> PyStr.split sep s = [s].
Proof.
  induction s as [|c r IH]; simpl; [reflexivity|].
  destruct (Ascii.eqb c sep); simpl; [discriminate|].
  intros H. by rewrite (IH H).
Qed.

Lemma count_app c s t : PyStr.count c (s ++ t) = (PyStr.count c s + PyStr.count c t)%nat.
Proof. induction s as [|d r IH]; simpl; [reflexivity|]. rewrite IH. lia. Qed.

Lemma root_of_without_slash c : PyStr.count "/" c = 0%nat -> Pathlib.root_of c = "".
Proof.
  destruct c as [|a r]; [reflexivity|]. simpl.
  destruct (Ascii.eqb_spec a "/") as [->|Hne]; [discriminate|]. intros _.
  unfold Pathlib.root_of.
  destruct a as [[] [] [] [] [] [] [] []]; try reflexivity. by destruct Hne.
Qed.

(** A single component parses to itself. *)
Lemma Path_component c :
  PyStr.count "/" c = 0%nat -> Pathlib.keeps c = true -> Pathlib.Path c = Pathlib.mk "" [c].
Proof.
  intros Hc Hk. unfold Pathlib.Path.
  rewrite (root_of_without_slash _ Hc), (split_without_sep _ _ Hc). simpl. by rewrite Hk.
Qed.

Lemma Path_parts_component s c :
  c ∈ Pathlib.parts (Pathlib.Path s) -> PyStr.count "/" c = 0%nat /\ Pathlib.keeps c = true.
Proof.
  unfold Pathlib.Path. simpl. rewrite list_elem_of_In, filter_In, <- list_elem_of_In.
  intros [Hin Hk]. split; [by eapply split_fields_no_sep | done].
Qed.

Lemma keeps_suffixed d : Pathlib.keeps (d ++ "-INGESTED") = true.
Proof.
  destruct d as [|a [|b r]]; try reflexivity.
  - unfold Pathlib.keeps. simpl.
    destruct (Ascii.eqb a "."); reflexivity.
  - unfold Pathlib.keeps. simpl.
    destruct (Ascii.eqb a "."); reflexivity.
Qed.

Lemma div_component p c :
  PyStr.count "/" c = 0%nat -> Pathlib.keeps c = true ->
  p // c = Pathlib.mk (Pathlib.root p) (Pathlib.parts p ++ [c]).
Proof. intros Hc Hk. unfold Pathlib.div. by rewrite (Path_component _ Hc Hk). Qed.

Lemma parent_snoc r ps c : Pathlib.parent (Pathlib.mk r (ps ++ [c])) = Pathlib.mk r ps.
Proof.
  unfold Pathlib.parent. cbn [Pathlib.parts Pathlib.root].
  destruct (ps ++ [c])%list eqn:E; [by destruct ps|].
  by rewrite <- E, removelast_last.
Qed.

Lemma name_snoc r ps c : Pathlib.name (Pathlib.mk r (ps ++ [c])) = c.
Proof. unfold Pathlib.name. simpl. apply last_last. Qed.

(** C9.  The relocation target of a run folder is the grandparent
    directory, joined with the parent directory's name followed by
    [-INGESTED], joined with the folder's own name: a path whose
    components end in [d], [n] is mapped to the same root and components
    with [d] replaced by [d-INGESTED].  The function of [illumina.py] is
    the same, and [/data/RunsA/Run123] maps to
    [/data/RunsA-INGESTED/Run123]. *)
Theorem to_ingested_path_spec (orig_path : string) (ps : list string) (d n : string) :
  Pathlib.parts (Pathlib.Path orig_path) = (ps ++ [d; n])%list ->
  let p := Pathlib.Path orig_path in
  to_ingested_path orig_path
    = Pathlib.parent (Pathlib.parent p) // (Pathlib.name (Pathlib.parent p) ++ "-INGESTED")
        // Pathlib.name p
  /\ to_ingested_path orig_path
    = Pathlib.mk (Pathlib.root p) (ps ++ [d ++ "-INGESTED"; n])
  /\ Illumina.to_ingested_path orig_path = to_ingested_path orig_path
  /\ Pathlib.str (to_ingested_path "/data/RunsA/Run123") = "/data/RunsA-INGESTED/Run123".
Proof.
  intros Hparts p. split; [reflexivity|]. split; [|split; reflexivity].
  unfold to_ingested_path. fold p.
  assert (Hp : p = Pathlib.mk (Pathlib.root p) ((ps ++ [d]) ++ [n])).
  { destruct p as [r q] eqn:E. simpl. f_equal.
    change q with (Pathlib.parts (Pathlib.mk r q)). rewrite <- E. subst p.
    rewrite Hparts. by rewrite <- app_assoc. }
  destruct (Path_parts_component orig_path d) as [Hd _].
  { rewrite Hparts. set_solver. }
  destruct (Path_parts_component orig_path n) as [Hn Hkn].
  { rewrite Hparts. set_solver. }
  rewrite Hp, name_snoc, parent_snoc, name_snoc, parent_snoc.
  rewrite (div_component _ (d ++ "-INGESTED"));
    [|by rewrite count_app, Hd|apply keeps_suffixed].
  rewrite (div_component _ n) by done. simpl. by rewrite <- app_assoc.
Qed.

(** The theorem at [/data/RunsA/Run123]. *)
Lemma to_ingested_path_spec_witness :
  to_ingested_path "/data/RunsA/Run123" = Pathlib.mk "/" ["data"; "RunsA-INGESTED"; "Run123"].
Proof.
  exact (proj1 (proj2 (to_ingested_path_spec "/data/RunsA/Run123" ["data"] "RunsA" "Run123" eq_refl))).
Defined.

(* ===================================================================== *)
(** ** The file enumeration of the local manifest *)
(* ===================================================================== *)

Lemma find_argv_eq :
  find_argv = ["find"; "."; "-type"; "f"; "-and"; "-not"; "-path"; "./_MANIFEST_LOCAL.txt"].
Proof. reflexivity. Qed.

Lemma find_lists es :
  Find.run find_argv es = Some (List.map Find.e_path (List.filter listed es)).
Proof.
  rewrite find_argv_eq. unfold Find.run.
  replace (String.eqb "find" "find" && String.eqb "." ".") with true by reflexivity.
  replace (Find.parse ["-type"; "f"; "-and"; "-not"; "-path"; "./_MANIFEST_LOCAL.txt"] false)
    with (Some [(false, Find.TypeIs "f"); (true, Find.PathIs "./_MANIFEST_LOCAL.txt")])
    by reflexivity.
  induction es as [|e es IH]; [reflexivity|].
  cbn [Find.select_all List.filter]. rewrite IH.
  set (rest := List.filter listed es). clearbody rest. clear IH.
  destruct e as [p k]. unfold listed.
  cbn [Find.selects Find.holds Find.e_kind Find.e_path].
  replace (Find.literal "./_MANIFEST_LOCAL.txt") with true by reflexivity.
  replace (String.eqb "f" "f") with true by reflexivity.
  cbv iota.
  destruct k; cbn [xorb andb negb map]; try reflexivity.
  destruct (String.eqb "./_MANIFEST_LOCAL.txt" p); reflexivity.
Qed.

(** Whenever the remote manifest of an earlier pass is still in the run
    folder, the command lists it. *)
Lemma find_lists_remote_manifest_if_present es :
  Find.mkEntry ("./" ++ MANIFEST_IRODS) Find.RegularFile ∈ es ->
  exists out, Find.run find_argv es = Some out /\ ("./" ++ MANIFEST_IRODS) ∈ out.
Proof.
  intros Hin. eexists. split; [apply find_lists|].
  apply list_elem_of_In, in_map_iff. eexists. split; [|apply filter_In; split].
  2: by apply list_elem_of_In.
  all: reflexivity.
Qed.

(** C5, on the code.  The [find] command of the local manifest build
    excludes [./_MANIFEST_LOCAL.txt] only: in a run folder that holds both
    manifest files it lists the remote manifest next to the data files.
    The catalogue query of the remote side excludes both names. *)
Theorem find_lists_remote_manifest :
  find_argv = ["find"; "."; "-type"; "f"; "-and"; "-not"; "-path"; "./" ++ MANIFEST_LOCAL]
  /\ Find.run find_argv Sample.run_folder_entries
     = Some ["./a"; "./sub/b"; "./" ++ MANIFEST_IRODS]
  /\ iquest_query Sample.dst_collection
     = inr ("SELECT DATA_SIZE, DATA_CHECKSUM, COLL_NAME, DATA_NAME WHERE COLL_NAME = '/zone/Run123'"
            ++ " AND DATA_NAME != '" ++ MANIFEST_LOCAL ++ "' AND DATA_NAME != '"
            ++ MANIFEST_IRODS ++ "'").
Proof. split; [reflexivity|]. split; vm_compute; reflexivity. Qed.

(* ===================================================================== *)
(** ** The completion detector *)
(* ===================================================================== *)

Section Detector.

Variable w : world.

Lemma attempt_ok ev e st :
  succeeds w ev = true -> attempt w ev e st = (Normal tt, record st [ev]).
Proof. intros H. unfold attempt, bind. rewrite emit_record, H. reflexivity. Qed.

Lemma attempt_refused ev e st :
  succeeds w ev = false -> attempt w ev e st = (Raise e, record st [ev]).
Proof. intros H. unfold attempt, bind. rewrite emit_record, H. reflexivity. Qed.

Lemma metadata_get_all_ok coll key st :
  succeeds w (MetaGetAll coll key) = true ->
  metadata_get_all w coll key st
  = (Normal (avus_with_key (metadata st) coll key), record st [MetaGetAll coll key]).
Proof.
  intros H. unfold metadata_get_all.
  rewrite (bind_normal _ _ _ _ _ (attempt_ok _ _ _ H)). reflexivity.
Qed.

Lemma metadata_get_all_refused coll key st :
  succeeds w (MetaGetAll coll key) = false ->
  metadata_get_all w coll key st = (Raise RemoteError, record st [MetaGetAll coll key]).
Proof.
  intros H. unfold metadata_get_all.
  by rewrite (bind_raise _ _ _ _ _ (attempt_refused _ _ _ H)).
Qed.

Lemma newest_parsed metas ts :
  Forall2 (fun m t => dateutil_parse w (avu_value m) = Some t) metas ts ->
  forall acc st, newest w metas acc st = (Normal (fold_left keep_newest ts acc), st).
Proof.
  induction 1 as [|m t metas ts Hm _ IH]; intros acc st; [reflexivity|].
  cbn [newest fold_left]. unfold dateutil_parser_parse. rewrite Hm.
  unfold bind at 1. cbn [ret]. apply IH.
Qed.

Lemma fold_keep_newest_some ts : forall lu,
  exists m, fold_left keep_newest ts (Some lu) = Some m
            /\ lu <= m /\ (forall t, t ∈ ts -> t <= m) /\ (m = lu \/ m ∈ ts).
Proof.
  induction ts as [|t ts IH]; intros lu; simpl.
  - exists lu. repeat split; [lia | intros t Ht; inversion Ht | by left].
  - destruct (Z.gtb_spec t lu) as [Hgt|Hle].
    + destruct (IH t) as (m & -> & Hm & Hall & Hin). exists m.
      repeat split; [lia | | ].
      * intros t' [->|Ht']%elem_of_cons; [lia | by apply Hall].
      * right. destruct Hin as [->|Hin]; [by left | by right].
    + destruct (IH lu) as (m & -> & Hm & Hall & Hin). exists m.
      repeat split; [lia | | ].
      * intros t' [->|Ht']%elem_of_cons; [lia | by apply Hall].
      * destruct Hin as [->|Hin]; [by left | right; by right].
Qed.

(** The loop computes the greatest stored value. *)
Lemma fold_keep_newest_greatest ts last :
  greatest last ts -> fold_left keep_newest ts None = Some last.
Proof.
  intros [Hin Hmax]. destruct ts as [|t ts]; [inversion Hin|]. simpl.
  destruct (fold_keep_newest_some ts t) as (m & -> & Hm & Hall & Hor). f_equal.
  assert (m ∈ t :: ts) as Hm' by (destruct Hor as [->|?]; [by left | by right]).
  apply Z.le_antisymm; [by apply Hmax|].
  apply elem_of_cons in Hin as [->|Hin]; [done | by apply Hall].
Qed.

Lemma age_of_some lu st :
  age_of w (Some lu) st = (Normal (now w (ticks st) - lu), tick st).
Proof. reflexivity. Qed.

Lemma age_of_none st :
  age_of w None st = (Normal (now w (ticks st) - now w (S (ticks st))), tick (tick st)).
Proof. reflexivity. Qed.

(** Line 139 always fails: [chck_path] is not a name of the module. *)
Lemma finalize_raises_NameError src_folder dst_collection st :
  finalize w src_folder dst_collection st = (Raise (NameError "chck_path"), st).
Proof. reflexivity. Qed.

(** C3.  With the stored [last_update] values readable and [last] the
  greatest of them, the handler goes on to [finalize] exactly when the
  injected predicate holds of the folder and [now - last] exceeds the
  delay; when the predicate is false it logs that the folder is not
  marked as done and returns, whatever the age; when the predicate holds
  and the age does not exceed the delay it logs that and returns. *)
Theorem completion_detector_gate
    src_folder dst_collection is_folder_done delay st ts last :
  succeeds w (MetaGetAll dst_collection KEY_LAST_UPDATE) = true ->
  last_updates_parse w st dst_collection ts ->
  greatest last ts ->
  let src := Pathlib.str (Pathlib.Path src_folder) in
  let age := now w (ticks st) - last in
  let seen := tick (record st [MetaGetAll dst_collection KEY_LAST_UPDATE; CallIsFolderDone src]) in
  let run := _post_job_run_folder_done w src_folder dst_collection is_folder_done delay st in
  run = (if negb (is_folder_done src)
         then (Normal tt, record seen [Log LvlInfo (MsgNotMarkedDone src)])
         else if age >? delay
         then call (finalize w src dst_collection)
                (record seen [Log LvlInfo (MsgWillFinalize dst_collection age delay)])
         else (Normal tt, record seen [Log LvlInfo (MsgNotMoving dst_collection age delay)]))
  /\ (Log LvlInfo (MsgWillFinalize dst_collection age delay) ∈ new_events st (snd run)
      <-> is_folder_done src = true /\ delay < age).
Proof.
  intros Hok Hparse Hmax src age seen run.
  assert (Hrun : run = (if negb (is_folder_done src)
         then (Normal tt, record seen [Log LvlInfo (MsgNotMarkedDone src)])
         else if age >? delay
         then call (finalize w src dst_collection)
                (record seen [Log LvlInfo (MsgWillFinalize dst_collection age delay)])
         else (Normal tt, record seen [Log LvlInfo (MsgNotMoving dst_collection age delay)]))).
  { subst run. unfold _post_job_run_folder_done. fold src.
    unfold call at 1.
    rewrite (bind_normal _ _ _ _ _ (metadata_get_all_ok _ _ _ Hok)).
    rewrite (bind_normal _ _ _ _ _ (newest_parsed _ _ Hparse _ _)).
    rewrite (fold_keep_newest_greatest _ _ Hmax).
    rewrite (bind_normal _ _ _ _ _ (age_of_some _ _)).
    unfold call_is_folder_done. unfold bind at 1. unfold bind at 1.
    rewrite emit_record. cbn [ret]. rewrite record_tick, record_record. cbn [app].
    fold seen. cbn [ticks record]. fold age.
    destruct (is_folder_done src); cbn [negb].
    - destruct (age >? delay).
      + unfold bind at 1. rewrite log_record. unfold call. reflexivity.
      + rewrite log_record. reflexivity.
    - unfold bind at 1. rewrite log_record. reflexivity. }
  split; [exact Hrun|]. rewrite Hrun. subst seen.
  destruct (is_folder_done src); cbn [negb].
  - destruct (Z.gtb_spec age delay) as [Hgt|Hle].
    + unfold call. rewrite finalize_raises_NameError. cbn [snd].
      rewrite tick_record_record, new_events_tick_record.
      split; [intros _; split; [done|lia] | intros _; set_solver].
    + cbn [snd]. rewrite tick_record_record, new_events_tick_record. cbn [app].
      split; [|intros [_ ?]; lia].
      intros Hin. repeat (apply elem_of_cons in Hin as [Hin|Hin]; [discriminate|]).
      inversion Hin.
  - cbn [snd]. rewrite tick_record_record, new_events_tick_record. cbn [app].
    split; [|intros [? _]; discriminate].
    intros Hin. repeat (apply elem_of_cons in Hin as [Hin|Hin]; [discriminate|]).
    inversion Hin.
Qed.

(** C4.  With no stored [last_update] value the age is the difference of
  two successive readings of the clock: it is never positive when the
  clock does not run backwards, the test against a non-negative delay
  comes out as for the age zero, and the handler returns without
  entering [finalize]: besides the metadata query and the call of the
  predicate it only writes one log record. *)
Theorem empty_history_never_finalizes
    src_folder dst_collection is_folder_done delay st :
  avus_with_key (metadata st) dst_collection KEY_LAST_UPDATE = [] ->
  now w (ticks st) <= now w (S (ticks st)) ->
  0 <= delay ->
  let src := Pathlib.str (Pathlib.Path src_folder) in
  let age := now w (ticks st) - now w (S (ticks st)) in
  let run := _post_job_run_folder_done w src_folder dst_collection is_folder_done delay st in
  age <= 0
  /\ (age >? delay) = (0 >? delay)
  /\ run = (if succeeds w (MetaGetAll dst_collection KEY_LAST_UPDATE)
           then (Normal tt,
                 tick (tick (record st
                   [MetaGetAll dst_collection KEY_LAST_UPDATE;
                    CallIsFolderDone src;
                    Log LvlInfo (if is_folder_done src
                                 then MsgNotMoving dst_collection age delay
                                 else MsgNotMarkedDone src)])))
           else (Raise RemoteError, record st [MetaGetAll dst_collection KEY_LAST_UPDATE])).
Proof.
  intros Hnone Hclock Hdelay src age run.
  assert (Hage : age <= 0) by (subst age; lia).
  split; [exact Hage|]. split.
  { destruct (Z.gtb_spec age delay), (Z.gtb_spec 0 delay); try reflexivity; lia. }
  subst run. unfold _post_job_run_folder_done. fold src. unfold call at 1.
  destruct (succeeds w (MetaGetAll dst_collection KEY_LAST_UPDATE)) eqn:Hok.
  - rewrite (bind_normal _ _ _ _ _ (metadata_get_all_ok _ _ _ Hok)).
    cbn [record metadata]. rewrite Hnone. cbn [newest].
    unfold bind at 1. cbn [ret].
    rewrite (bind_normal _ _ _ _ _ (age_of_none _)).
    unfold call_is_folder_done. unfold bind at 1. unfold bind at 1.
    rewrite emit_record. cbn [ret]. cbn [ticks record tick]. fold age.
    destruct (is_folder_done src); cbn [negb].
    + destruct (Z.gtb_spec age delay) as [Hgt|Hle]; [lia|].
      rewrite log_record. unfold record, tick. simpl.
      by rewrite <- !app_assoc.
    + unfold bind at 1. rewrite log_record. unfold record, tick. simpl.
      by rewrite <- !app_assoc.
  - by rewrite (bind_raise _ _ _ _ _ (metadata_get_all_refused _ _ _ Hok)).
Qed.

End Detector.

(** The theorem with the marker present and a delay of 15 minutes: a
    [last_update] 20 minutes old proceeds, one 10 minutes old does not. *)
Lemma completion_detector_gate_witness :
  let run t0 :=
    _post_job_run_folder_done (Sample.surroundings Sample.nothing t0)
      Sample.src_folder Sample.dst_collection (fun _ => true)
      Illumina.DELAY_UNTIL_AT_REST Sample.tracked in
  (Log LvlInfo (MsgWillFinalize Sample.dst_collection (20 * 60 * 1000000)
                  Illumina.DELAY_UNTIL_AT_REST)
     ∈ new_events Sample.tracked (snd (run Sample.twenty_past)))
  /\ ~ (Log LvlInfo (MsgWillFinalize Sample.dst_collection (10 * 60 * 1000000)
                       Illumina.DELAY_UNTIL_AT_REST)
          ∈ new_events Sample.tracked (snd (run Sample.ten_past))).
Proof.
  assert (Hparse : forall t0,
    last_updates_parse (Sample.surroundings Sample.nothing t0) Sample.tracked
      Sample.dst_collection [Sample.noon]).
  { intros t0. unfold last_updates_parse.
    replace (avus_with_key (metadata Sample.tracked) Sample.dst_collection KEY_LAST_UPDATE)
      with [iRODSMeta KEY_LAST_UPDATE "2021-03-01T12:00:00" ""] by (vm_compute; reflexivity).
    constructor; [vm_compute; reflexivity | constructor]. }
  assert (Hmax : greatest Sample.noon [Sample.noon]).
  { split; [left | intros t Ht; apply list_elem_of_singleton in Ht; subst t; reflexivity]. }
  pose proof (proj2 (completion_detector_gate
    (Sample.surroundings Sample.nothing Sample.twenty_past)
    Sample.src_folder Sample.dst_collection (fun _ => true)
    Illumina.DELAY_UNTIL_AT_REST Sample.tracked [Sample.noon] Sample.noon
    eq_refl (Hparse _) Hmax)) as H20.
  pose proof (proj2 (completion_detector_gate
    (Sample.surroundings Sample.nothing Sample.ten_past)
    Sample.src_folder Sample.dst_collection (fun _ => true)
    Illumina.DELAY_UNTIL_AT_REST Sample.tracked [Sample.noon] Sample.noon
    eq_refl (Hparse _) Hmax)) as H10.
  vm_compute in H20, H10. vm_compute. split.
  - apply H20. split; reflexivity.
  - intros Hin. apply H10 in Hin as [_ Hlt]. discriminate Hlt.
Defined.

(** The theorem for a folder that is marked as done and has no
    [last_update] value. *)
Lemma empty_history_never_finalizes_witness :
  _post_job_run_folder_done (Sample.surroundings Sample.nothing Sample.twenty_past)
    Sample.src_folder Sample.dst_collection (fun _ => true)
    Illumina.DELAY_UNTIL_AT_REST Sample.fresh
  = (Normal tt,
     tick (tick (record Sample.fresh
       [MetaGetAll Sample.dst_collection KEY_LAST_UPDATE;
        CallIsFolderDone Sample.src_folder;
        Log LvlInfo (MsgNotMoving Sample.dst_collection (-1) Illumina.DELAY_UNTIL_AT_REST)]))).
Proof.
  refine (proj2 (proj2 (empty_history_never_finalizes
    (Sample.surroundings Sample.nothing Sample.twenty_past)
    Sample.src_folder Sample.dst_collection (fun _ => true)
    Illumina.DELAY_UNTIL_AT_REST Sample.fresh _ _ _))).
  - vm_compute. reflexivity.
  - vm_compute. discriminate.
  - vm_compute. discriminate.
Defined.

(* ===================================================================== *)
(** ** What a run of the handler writes *)
(* ===================================================================== *)
















Section Frame.

Variable w : world.











End Frame.

(** A run folder that is marked as done and at rest, in surroundings
    that would refuse the rename: the run ends on line 139, after the
    metadata query, the call of the predicate and one log record. *)
Example handler_at_rest_raises_NameError :
  let w := Sample.surroundings Sample.renames Sample.twenty_past in
  let run := _post_job_run_folder_done w Sample.src_folder Sample.dst_collection
               (fun _ => true) Illumina.DELAY_UNTIL_AT_REST Sample.tracked in
  fst run = Raise (NameError "chck_path")
  /\ new_events Sample.tracked (snd run)
     = [MetaGetAll "/zone/Run123" KEY_LAST_UPDATE;
        CallIsFolderDone "/data/RunsA/Run123";
        Log LvlInfo (MsgWillFinalize "/zone/Run123" (20 * 60 * 1000000)
                       Illumina.DELAY_UNTIL_AT_REST)].
Proof. cbv zeta. split; vm_compute; reflexivity. Qed.

(* ===================================================================== *)
(** ** The pass over all run folders *)
(* ===================================================================== *)

Lemma for_each_raise {A} (x : A) rest body e st st' :
  body x st = (Raise e, st') -> for_each (x :: rest) body st = (Raise e, st').
Proof. intros H. cbn [for_each]. by apply bind_raise. Qed.

Lemma for_each_normal {A} (x : A) rest body st st' :
  body x st = (Normal tt, st') -> for_each (x :: rest) body st = for_each rest body st'.
Proof. intros H. cbn [for_each]. by rewrite (bind_normal _ _ _ _ _ H). Qed.

(** C8, on the code.  With two tracked run folders, both marked as done
    and at rest, the first one enters [finalize] and raises [NameError];
    the pass ends with that exception after the session clean-up, and the
    second folder is never looked at. *)
Theorem post_job_stops_at_first_failure :
  let w := Sample.surroundings Sample.nothing Sample.twenty_past in
  let run := post_job w "/data/RunsA" "/zone" (fun _ => true)
               Illumina.DELAY_UNTIL_AT_REST Sample.tracked in
  PyStr.sorted (iterdir w "/data/RunsA") = ["Run123"; "Run124"]
  /\ fst run = Raise (NameError "chck_path")
  /\ new_events Sample.tracked (snd run)
     = [SessionOpen; CollectionsGet "/zone"; Iterdir "/data/RunsA";
        MetaGetAll "/zone/Run123" KEY_LAST_UPDATE;
        CallIsFolderDone "/data/RunsA/Run123";
        Log LvlInfo (MsgWillFinalize "/zone/Run123" (20 * 60 * 1000000)
                       Illumina.DELAY_UNTIL_AT_REST);
        SessionCleanup]
  /\ MetaGetAll "/zone/Run124" KEY_LAST_UPDATE ∉ new_events Sample.tracked (snd run).
Proof.
  cbv zeta. split; [by vm_compute|]. split; [by vm_compute|].
  assert (H : new_events Sample.tracked
                (snd (post_job (Sample.surroundings Sample.nothing Sample.twenty_past)
                        "/data/RunsA" "/zone" (fun _ => true)
                        Illumina.DELAY_UNTIL_AT_REST Sample.tracked))
     = [SessionOpen; CollectionsGet "/zone"; Iterdir "/data/RunsA";
        MetaGetAll "/zone/Run123" KEY_LAST_UPDATE;
        CallIsFolderDone "/data/RunsA/Run123";
        Log LvlInfo (MsgWillFinalize "/zone/Run123" (20 * 60 * 1000000)
                       Illumina.DELAY_UNTIL_AT_REST);
        SessionCleanup]) by (vm_compute; reflexivity).
  split; [exact H|]. rewrite H.
  intros Hin. repeat (apply elem_of_cons in Hin as [Hin|Hin]; [discriminate Hin|]).
  inversion Hin.
Qed.
